(** * VaaniCare government scheme finder: query builder, search aggregator, endpoint

    Shallow embedding of [government/government.py] and [government/main.py].

    - Python [str] is [string]; Python [int] is [Z].
    - A Python dict that is only read ([user], a provider row [r]) is a
      [gmap] keyed by strings; the accumulator [aggregated], whose
      insertion order is observable through [list(aggregated.values())],
      is an association list in insertion order.
    - An exception is the [Raise] case of [result].
    - The search provider is external and stateful (network): it is a
      function on an explicit world state, shared by everything below. *)

From stdpp Require Import base option list strings gmap pretty.
From Stdlib Require Import ZArith.

(** ** Python values, exceptions *)

(** The values a profile dict holds: [age] is an [int], the rest are [str]. *)
Inductive pyval : Type :=
  | PyInt (z : Z)
  | PyStr (s : string).

Inductive exn : Type :=
  | KeyError (key : string)
  | ProviderError (msg : string).

Inductive result (A : Type) : Type :=
  | Ok (a : A)
  | Raise (e : exn).
Arguments Ok {A} a.
Arguments Raise {A} e.

(** Sequencing: the first exception raised ends the computation. *)
#[global] Instance result_ret : MRet result := fun _ a => Ok a.
#[global] Instance result_bind : MBind result := fun _ _ k m =>
  match m with
  | Ok a => k a
  | Raise e => Raise e
  end.

(** [format(v)] inside an f-string replacement field: [str(v)]. *)
Definition py_format (v : pyval) : string :=
  match v with
  | PyInt z => pretty z
  | PyStr s => s
  end.

(** [d[key]] on a dict: [KeyError] when the key is absent. *)
Definition getitem (d : gmap string pyval) (key : string) : result pyval :=
  match d !! key with
  | Some v => Ok v
  | None => Raise (KeyError key)
  end.

(** [bool(s)] for a [str]: false exactly for the empty string. *)
Definition truthy (s : string) : bool :=
  match s with
  | EmptyString => false
  | String _ _ => true
  end.

(** [sub in s] for two [str]: [sub] occurs in [s] as a contiguous run. *)
Fixpoint str_in (sub s : string) : bool :=
  String.prefix sub s ||
  match s with
  | EmptyString => false
  | String _ s' => str_in sub s'
  end.

(** ** government.py *)

Definition ALLOWED_DOMAINS : list string :=
  [ "gov.in";
    "kerala.gov.in";
    "scholarships.gov.in";
    "mygov.in";
    "india.gov.in";
    "cdc.kerala.gov.in";
    "dcescholarship.kerala.gov.in" ].

Definition build_queries (user : gmap string pyval) : result (list string) :=
  state1 ← getitem user "state";
  state2 ← getitem user "state";
  category ← getitem user "category";
  state4 ← getitem user "state";
  Ok [ py_format state1 +:+ " student scholarship government";
       py_format state2 +:+ " " +:+ py_format category +:+ " scholarship government";
       "Central sector scholarship income government";
       py_format state4 +:+ " higher education scholarship official" ].

(** A provider row [r]: a dict of strings; a field may be absent. *)
Abbreviation Row := (gmap string string).

(** [r.get(key, "")]. *)
Definition get (r : Row) (key : string) : string := default "" (r !! key).

(** The dict literal of lines 41-46. *)
Record SchemeResult : Type := mkSchemeResult {
  title : string;
  url : string;
  snippet : string;
  source_query : string
}.

(** *** The accumulator: a dict in insertion order *)

Definition pydict (V : Type) : Type := list (string * V).

(** [k in d]. *)
Fixpoint dict_contains {V : Type} (k : string) (d : pydict V) : bool :=
  match d with
  | [] => false
  | (k', _) :: d' => if String.eqb k k' then true else dict_contains k d'
  end.

(** [d[k] = v]: an existing key keeps its position, a new key goes last. *)
Fixpoint dict_setitem {V : Type} (k : string) (v : V) (d : pydict V) : pydict V :=
  match d with
  | [] => [(k, v)]
  | (k', v') :: d' =>
      if String.eqb k k' then (k', v) :: d' else (k', v') :: dict_setitem k v d'
  end.

(** [list(d.values())]. *)
Definition dict_values {V : Type} (d : pydict V) : list V := map snd d.

(** *** The aggregator *)

(** Body of the inner [for r in ...] loop, lines 31-46. *)
Definition process_row (query : string) (r : Row)
    (aggregated : pydict SchemeResult) : pydict SchemeResult :=
  let url := get r "href" in
  if negb (truthy url) then aggregated
  else if negb (existsb (fun domain => str_in domain url) ALLOWED_DOMAINS)
  then aggregated
  else if negb (dict_contains url aggregated) then
    dict_setitem url
      {| title := get r "title";
         url := url;
         snippet := get r "body";
         source_query := query |}
      aggregated
  else aggregated.

(** Inner loop over the rows the provider returned for [query]. *)
Fixpoint inner_loop (query : string) (rows : list Row)
    (aggregated : pydict SchemeResult) : pydict SchemeResult :=
  match rows with
  | [] => aggregated
  | r :: rows' => inner_loop query rows' (process_row query r aggregated)
  end.

Section Provider.
(** The state of the outside world the provider talks to. *)
Context {World : Type}.
(** [ddgs.text(query, max_results=n)]: a list of rows or an exception,
    and the world after the call. *)
Variable text : string -> Z -> World -> result (list Row) * World.

(** Outer loop, lines 29-46. An exception of [ddgs.text] leaves the loop. *)
Fixpoint outer_loop (max_results_per_query : Z) (queries : list string)
    (aggregated : pydict SchemeResult) (w : World)
    : result (pydict SchemeResult) * World :=
  match queries with
  | [] => (Ok aggregated, w)
  | query :: queries' =>
      match text query max_results_per_query w with
      | (Ok rows, w') =>
          outer_loop max_results_per_query queries'
            (inner_loop query rows aggregated) w'
      | (Raise e, w') => (Raise e, w')
      end
  end.

(** [with DDGS() as ddgs:] opens and releases a client session; its
    [__exit__] returns [None], so an exception raised in the block is
    re-raised after the release. *)
Definition duckduckgo_scheme_search (user : gmap string pyval)
    (max_results_per_query : Z) (w : World)
    : result (list SchemeResult) * World :=
  match build_queries user with
  | Raise e => (Raise e, w)
  | Ok queries =>
      match outer_loop max_results_per_query queries [] w with
      | (Ok aggregated, w') => (Ok (dict_values aggregated), w')
      | (Raise e, w') => (Raise e, w')
      end
  end.
End Provider.

(** ** main.py *)

Record UserProfile : Type := mkUserProfile {
  age : Z;
  gender : string;
  state : string;
  income_bracket : string;
  occupation : string;
  category : string
}.

(** [user.dict()]. *)
Definition dict (user : UserProfile) : gmap string pyval :=
  {[ "age" := PyInt (age user);
     "gender" := PyStr (gender user);
     "state" := PyStr (state user);
     "income_bracket" := PyStr (income_bracket user);
     "occupation" := PyStr (occupation user);
     "category" := PyStr (category user) ]}.

(** The response dict of lines 29-34. *)
Record Envelope : Type := mkEnvelope {
  query_state : string;
  count : Z;
  schemes : list SchemeResult;
  disclaimer : string
}.

Section Endpoint.
Context {World : Type}.
Variable text : string -> Z -> World -> result (list Row) * World.

(** The handler of [POST /find-schemes]; [max_results_per_query] takes its
    default, 10. *)
Definition find_schemes (user : UserProfile) (w : World)
    : result Envelope * World :=
  match duckduckgo_scheme_search text (dict user) 10%Z w with
  | (Ok schemes, w') =>
      (Ok {| query_state := state user;
             count := Z.of_nat (length schemes);
             schemes := schemes;
             disclaimer :=
               "Final eligibility is determined by the concerned government department." |},
       w')
  | (Raise e, w') => (Raise e, w')
  end.
End Endpoint.

(** ** The run of the loops, seen from outside *)

Section Run.
Context {World : Type}.
Variable text : string -> Z -> World -> result (list Row) * World.

(** What the provider answers to the calls of the outer loop, in call
    order, each answer paired with its query; the first exception ends
    the calls. *)
Fixpoint responses (max_results_per_query : Z) (queries : list string)
    (w : World) : result (list (string * list Row)) * World :=
  match queries with
  | [] => (Ok [], w)
  | query :: queries' =>
      match text query max_results_per_query w with
      | (Ok rows, w') =>
          match responses max_results_per_query queries' w' with
          | (Ok answers, w'') => (Ok ((query, rows) :: answers), w'')
          | (Raise e, w'') => (Raise e, w'')
          end
      | (Raise e, w') => (Raise e, w')
      end
  end.
End Run.

(** The rows in the order the two loops visit them, each with the query
    of the enclosing iteration. *)
Definition visited (answers : list (string * list Row)) : list (string * Row) :=
  flat_map (fun a => map (pair (fst a)) (snd a)) answers.

(** The two loops run over recorded answers, from an empty accumulator. *)
Definition aggregate (answers : list (string * list Row)) : list SchemeResult :=
  dict_values (fold_left (fun aggregated a => inner_loop (fst a) (snd a) aggregated)
                 answers []).

(** The body of the inner loop run over visited rows. *)
Definition run_rows (rows : list (string * Row))
    (aggregated : pydict SchemeResult) : pydict SchemeResult :=
  fold_left (fun acc qr => process_row (fst qr) (snd qr) acc) rows aggregated.

(** The entry line 41 builds for row [r] under [query]. *)
Definition entry_of (query : string) (r : Row) : SchemeResult :=
  {| title := get r "title";
     url := get r "href";
     snippet := get r "body";
     source_query := query |}.

(** The filter of lines 33-37 as one test on the URL. *)
Definition accepted (u : string) : bool :=
  truthy u && existsb (fun domain => str_in domain u) ALLOWED_DOMAINS.

(** [sub] occurs in [s]: some text, then [sub], then some text. *)
Definition substring_of (sub s : string) : Prop :=
  exists before after, s = before +:+ sub +:+ after.

(** [s] ends in [suffix]. *)
Definition ends_with (suffix s : string) : Prop :=
  exists before, s = before +:+ suffix.

(** The URLs of a list of visited rows. *)
Definition hrefs (rows : list (string * Row)) : list string :=
  map (fun qr => get (snd qr) "href") rows.

(** Insertion order as the specification words it: going through the
    visited rows in order, a row yields an entry when its URL is non-empty,
    contains an allowed domain and is not the URL of an earlier row. *)
Fixpoint first_appearances (earlier : list string) (rows : list (string * Row))
    : list SchemeResult :=
  match rows with
  | [] => []
  | (query, r) :: rows' =>
      let u := get r "href" in
      if truthy u && existsb (fun domain => str_in domain u) ALLOWED_DOMAINS
         && negb (bool_decide (u ∈ earlier))
      then entry_of query r :: first_appearances (u :: earlier) rows'
      else first_appearances (u :: earlier) rows'
  end.

(** What the accumulator satisfies throughout a run: its keys are pairwise
    distinct and every key is the url of the entry stored under it. *)
Definition dict_wf (d : pydict SchemeResult) : Prop :=
  NoDup d.*1 /\ Forall (fun kv => url (snd kv) = fst kv) d.

(** The four queries line 17 builds from a state and a category. *)
Definition queries_of (st cat : string) : list string :=
  [ st +:+ " student scholarship government";
    st +:+ " " +:+ cat +:+ " scholarship government";
    "Central sector scholarship income government";
    st +:+ " higher education scholarship official" ].

(** ** A stub provider and sample profiles *)

(** Same state and category as [kerala_obc], everything else different. *)
Definition kerala_obc_retired : UserProfile :=
  {| age := 67%Z; gender := "male"; state := "Kerala";
     income_bracket := "high"; occupation := "retired"; category := "OBC" |}.


Definition kerala_obc : UserProfile :=
  {| age := 19%Z; gender := "female"; state := "Kerala";
     income_bracket := "low"; occupation := "student"; category := "OBC" |}.

Definition row (href title body : string) : Row :=
  {[ "href" := href; "title" := title; "body" := body ]}.

Definition row_A : Row := row "https://scholarships.gov.in/x" "A" "b".
Definition row_A2 : Row := row "https://scholarships.gov.in/x" "A2" "b2".
Definition row_example : Row := row "https://example.com/x" "E" "e".
Definition row_no_href : Row := {[ "title" := "no link" ]}.
Definition row_empty_href : Row := row "" "empty link" "".
Definition row_fake : Row := row "https://fakegov.in.example.com/x" "F" "f".
Definition row_bare : Row := {[ "href" := "https://kerala.gov.in/s" ]}.
Definition row_A_untitled : Row :=
  {[ "href" := "https://scholarships.gov.in/x"; "body" := "b3" ]}.

(** Answers the first two Kerala/OBC queries with the same URL under two
    titles, and mixes in rows that must be filtered. *)
Definition stub_text (query : string) (n : Z) (w : unit)
    : result (list Row) * unit :=
  if String.eqb query "Kerala student scholarship government" then
    (Ok [row_A; row_example; row_no_href; row_empty_href], w)
  else if String.eqb query "Kerala OBC scholarship government" then
    (Ok [row_fake; row_A2; row_bare; row_A_untitled], w)
  else (Ok [], w).

(** What the aggregator returns for [kerala_obc] against [stub_text]. *)
Definition kerala_obc_schemes : list SchemeResult :=
  [ {| title := "A"; url := "https://scholarships.gov.in/x"; snippet := "b";
       source_query := "Kerala student scholarship government" |};
    {| title := "F"; url := "https://fakegov.in.example.com/x"; snippet := "f";
       source_query := "Kerala OBC scholarship government" |};
    {| title := ""; url := "https://kerala.gov.in/s"; snippet := "";
       source_query := "Kerala OBC scholarship government" |} ].

(** A provider that fails on the profile-independent query. *)
Definition failing_text (query : string) (n : Z) (w : unit)
    : result (list Row) * unit :=
  if String.eqb query "Central sector scholarship income government" then
    (Raise (ProviderError "ratelimit"), w)
  else stub_text query n w.

(** ** Facts about strings and the accumulator *)

(** The substring test compares characters exactly: case matters. *)
Example uppercase_domain_rejected :
  accepted "https://scholarships.gov.in/x" = true /\
  accepted "https://SCHOLARSHIPS.GOV.IN/x" = false.
Proof. split; reflexivity. Qed.

Lemma append_cons (c : Ascii.ascii) (a t : string) :
  String c a +:+ t = String c (a +:+ t).
Proof. reflexivity. Qed.

Lemma append_nil (t : string) : "" +:+ t = t.
Proof. reflexivity. Qed.

Lemma prefix_true_iff (a s : string) :
  String.prefix a s = true <-> exists t, s = a +:+ t.
Proof.
  revert s. induction a as [|c a IH]; intros s; simpl.
  - split; [intros _; by exists s | by destruct s].
  - destruct s as [|d s].
    + split; [done | by intros [t Ht]].
    + setoid_rewrite append_cons. simpl.
      destruct (Ascii.ascii_dec c d) as [->|Hne].
      * rewrite IH. split; intros [t Ht]; exists t; congruence.
      * split; [done | intros [t Ht]; congruence].
Qed.

Lemma str_in_spec (sub s : string) :
  str_in sub s = true <-> substring_of sub s.
Proof.
  unfold substring_of. induction s as [|c s IH].
  - cbn [str_in]. rewrite orb_false_r, prefix_true_iff. split.
    + intros [t Ht]. by exists "", t.
    + intros ([|d b] & a & Hs); [by exists a | by rewrite append_cons in Hs].
  - cbn [str_in]. rewrite orb_true_iff, IH, prefix_true_iff. split.
    + intros [[t Ht] | (b & a & Hs)].
      * by exists "", t.
      * exists (String c b), a. by rewrite append_cons, Hs.
    + intros ([|d b] & a & Hs).
      * left. by exists a.
      * right. exists b, a. rewrite append_cons in Hs. congruence.
Qed.

Lemma truthy_true_iff (s : string) : truthy s = true <-> s <> "".
Proof. by destruct s. Qed.

Lemma dict_contains_elem_of {V : Type} (k : string) (d : pydict V) :
  dict_contains k d = true <-> k ∈ d.*1.
Proof.
  induction d as [|[k' v] d IH]; simpl.
  - split; [done | by intros ?%elem_of_nil].
  - rewrite elem_of_cons. destruct (String.eqb_spec k k') as [->|Hne].
    + by split; [left |].
    + rewrite IH. split; [by right | by intros [?|?]].
Qed.

Lemma dict_setitem_fresh {V : Type} (k : string) (v : V) (d : pydict V) :
  dict_contains k d = false -> dict_setitem k v d = d ++ [(k, v)].
Proof.
  induction d as [|[k' v'] d IH]; simpl; [done |].
  destruct (String.eqb k k'); [done |]. intros H. by rewrite IH.
Qed.

Lemma accepted_spec (u : string) :
  accepted u = true <->
  u <> "" /\ exists domain, domain ∈ ALLOWED_DOMAINS /\ substring_of domain u.
Proof.
  unfold accepted. rewrite andb_true_iff, truthy_true_iff, existsb_exists.
  split; intros [Hu (d & Hd & Hs)]; (split; [done |]); exists d.
  - by rewrite list_elem_of_In, <- str_in_spec.
  - by rewrite <- list_elem_of_In, str_in_spec.
Qed.

Lemma process_row_eq (query : string) (r : Row) (aggregated : pydict SchemeResult) :
  process_row query r aggregated =
  if accepted (get r "href") && negb (dict_contains (get r "href") aggregated)
  then aggregated ++ [(get r "href", entry_of query r)]
  else aggregated.
Proof.
  unfold process_row, accepted, entry_of.
  destruct (truthy _); cbn [negb andb]; [|done].
  destruct (existsb _ ALLOWED_DOMAINS); cbn [negb andb]; [|done].
  destruct (dict_contains _ _) eqn:Hc; cbn [negb andb]; [done |].
  by apply dict_setitem_fresh.
Qed.

(** ** The loops as one pass over the visited rows *)

Lemma inner_loop_run_rows (query : string) (rows : list Row)
    (aggregated : pydict SchemeResult) :
  inner_loop query rows aggregated = run_rows (map (pair query) rows) aggregated.
Proof.
  revert aggregated. induction rows as [|r rows IH]; intros aggregated; [done |].
  simpl. by rewrite IH.
Qed.

Lemma fold_answers_run_rows (answers : list (string * list Row))
    (aggregated : pydict SchemeResult) :
  fold_left (fun acc a => inner_loop (fst a) (snd a) acc) answers aggregated =
  run_rows (visited answers) aggregated.
Proof.
  revert aggregated.
  induction answers as [|[query rows] answers IH]; intros aggregated; [done |].
  simpl. rewrite IH, inner_loop_run_rows. unfold run_rows.
  by rewrite fold_left_app.
Qed.

Lemma first_appearances_cons (earlier : list string) (query : string) (r : Row)
    (rows : list (string * Row)) :
  first_appearances earlier ((query, r) :: rows) =
  if accepted (get r "href") && negb (bool_decide (get r "href" ∈ earlier))
  then entry_of query r :: first_appearances (get r "href" :: earlier) rows
  else first_appearances (get r "href" :: earlier) rows.
Proof. reflexivity. Qed.

Lemma run_rows_first_appearances (rows : list (string * Row))
    (aggregated : pydict SchemeResult) (earlier : list string) :
  (forall u, accepted u = true -> u ∈ aggregated.*1 <-> u ∈ earlier) ->
  dict_values (run_rows rows aggregated) =
  dict_values aggregated ++ first_appearances earlier rows.
Proof.
  revert aggregated earlier.
  induction rows as [|[query r] rows IH]; intros aggregated earlier Hinv.
  - simpl. by rewrite app_nil_r.
  - rewrite first_appearances_cons. cbn [run_rows fold_left fst snd].
    fold (run_rows rows (process_row query r aggregated)).
    rewrite process_row_eq.
    set (u := get r "href") in *.
    destruct (accepted u) eqn:Hacc; cbn [andb].
    + destruct (dict_contains u aggregated) eqn:Hc; cbn [negb].
      * apply dict_contains_elem_of in Hc.
        rewrite bool_decide_eq_true_2 by by apply Hinv.
        cbn [negb]. apply IH. intros u' Hu'. rewrite elem_of_cons, <- Hinv by done.
        split; [by right | by intros [->|?]].
      * assert (u ∉ earlier) as Hne.
        { rewrite <- Hinv by done. rewrite <- dict_contains_elem_of. congruence. }
        rewrite bool_decide_eq_false_2 by done. cbn [negb].
        rewrite (IH _ (u :: earlier)).
        -- unfold dict_values. by rewrite map_app, <- app_assoc.
        -- intros u' Hu'. rewrite fmap_app, elem_of_app, elem_of_cons, Hinv by done.
           cbn. rewrite list_elem_of_singleton. tauto.
    + apply IH. intros u' Hu'. rewrite elem_of_cons, <- Hinv by done.
      split; [by right | intros [->|?]; [congruence | done]].
Qed.

Lemma aggregate_first_appearances (answers : list (string * list Row)) :
  aggregate answers = first_appearances [] (visited answers).
Proof.
  unfold aggregate. rewrite fold_answers_run_rows.
  by rewrite (run_rows_first_appearances _ [] []).
Qed.

Section RunFacts.
Context {World : Type}.
Variable text : string -> Z -> World -> result (list Row) * World.

Lemma outer_loop_responses (n : Z) (queries : list string)
    (aggregated : pydict SchemeResult) (w : World) :
  outer_loop text n queries aggregated w =
  match responses text n queries w with
  | (Ok answers, w') =>
      (Ok (fold_left (fun acc a => inner_loop (fst a) (snd a) acc)
             answers aggregated), w')
  | (Raise e, w') => (Raise e, w')
  end.
Proof.
  revert aggregated w.
  induction queries as [|query queries IH]; intros aggregated w; [done |].
  simpl. destruct (text query n w) as [[rows|e] w']; [|done].
  rewrite IH. by destruct (responses text n queries w') as [[answers|e] w''].
Qed.

(** The aggregator is [aggregate] applied to what the provider answered. *)
Lemma duckduckgo_scheme_search_responses (user : gmap string pyval) (n : Z)
    (w : World) :
  duckduckgo_scheme_search text user n w =
  match build_queries user with
  | Raise e => (Raise e, w)
  | Ok queries =>
      match responses text n queries w with
      | (Ok answers, w') => (Ok (aggregate answers), w')
      | (Raise e, w') => (Raise e, w')
      end
  end.
Proof.
  unfold duckduckgo_scheme_search.
  destruct (build_queries user) as [queries|e]; [|done].
  rewrite outer_loop_responses.
  by destruct (responses text n queries w) as [[answers|e] w'].
Qed.

Lemma responses_queries (n : Z) (queries : list string) (w w' : World)
    (answers : list (string * list Row)) :
  responses text n queries w = (Ok answers, w') -> answers.*1 = queries.
Proof.
  revert w w' answers.
  induction queries as [|query queries IH]; intros w w' answers; simpl.
  - by intros [= <- _].
  - destruct (text query n w) as [[rows|e] w1]; [|done].
    destruct (responses text n queries w1) as [[answers'|e] w2] eqn:Hr; [|done].
    intros [= <- _]. simpl. f_equal. by eapply IH.
Qed.
End RunFacts.

(** ** Facts about first appearances *)

Lemma first_appearances_url (earlier : list string) (rows : list (string * Row))
    (e : SchemeResult) :
  e ∈ first_appearances earlier rows ->
  url e ∈ hrefs rows /\ (url e ∉ earlier) /\ accepted (url e) = true.
Proof.
  revert earlier. induction rows as [|[query r] rows IH]; intros earlier.
  - by intros ?%elem_of_nil.
  - rewrite first_appearances_cons. cbn [hrefs map snd].
    fold (hrefs rows). set (u := get r "href").
    assert (e ∈ first_appearances (u :: earlier) rows ->
            url e ∈ u :: hrefs rows /\ (url e ∉ earlier) /\ accepted (url e) = true)
      as Hrest.
    { intros (Hin & Hne & Hacc)%IH. rewrite not_elem_of_cons in Hne.
      split; [by right | by destruct Hne]. }
    destruct (accepted u) eqn:Hacc; cbn [andb]; [|done].
    destruct (bool_decide (u ∈ earlier)) eqn:Hd; cbn [negb]; [done |].
    apply bool_decide_eq_false in Hd.
    intros [->|Hin]%elem_of_cons; [|by apply Hrest].
    cbn [entry_of url]. fold u. split; [by left | done].
Qed.

Lemma first_appearances_NoDup (earlier : list string) (rows : list (string * Row)) :
  NoDup (url <$> first_appearances earlier rows).
Proof.
  revert earlier. induction rows as [|[query r] rows IH]; intros earlier.
  - constructor.
  - rewrite first_appearances_cons.
    destruct (_ && _); [|by apply IH].
    rewrite fmap_cons. apply NoDup_cons. split; [|by apply IH].
    intros (e & He & Hin)%list_elem_of_fmap.
    apply first_appearances_url in Hin as (_ & Hne & _).
    apply Hne. rewrite <- He. by left.
Qed.

(** An entry of the output splits the visited rows at the row that made
    it: the entries before it come from the rows before, the entries
    after it from the rows after. *)
Lemma first_appearances_split (earlier : list string) (rows : list (string * Row))
    (o1 : list SchemeResult) (e : SchemeResult) (o2 : list SchemeResult) :
  first_appearances earlier rows = o1 ++ e :: o2 ->
  exists p query r s,
    rows = p ++ (query, r) :: s /\
    e = entry_of query r /\
    (get r "href" ∉ hrefs p) /\
    (get r "href" ∉ earlier) /\
    o1 = first_appearances earlier p /\
    o2 = first_appearances (get r "href" :: reverse (hrefs p) ++ earlier) s.
Proof.
  revert earlier o1. induction rows as [|[query0 r0] rows IH]; intros earlier o1.
  - by destruct o1.
  - rewrite first_appearances_cons. set (u0 := get r0 "href").
    assert (first_appearances (u0 :: earlier) rows = o1 ++ e :: o2 ->
            accepted u0 && negb (bool_decide (u0 ∈ earlier)) = false ->
            exists p query r s,
              (query0, r0) :: rows = p ++ (query, r) :: s /\
              e = entry_of query r /\
              (get r "href" ∉ hrefs p) /\
              (get r "href" ∉ earlier) /\
              o1 = first_appearances earlier p /\
              o2 = first_appearances (get r "href" :: reverse (hrefs p) ++ earlier) s)
      as Hskip.
    { intros (p & query & r & s & -> & -> & Hp & He & -> & ->)%IH Hk.
      apply not_elem_of_cons in He as [Hne He].
      exists ((query0, r0) :: p), query, r, s. repeat split; [| done | |].
      - cbn [hrefs map snd]. fold u0. by apply not_elem_of_cons.
      - rewrite first_appearances_cons. fold u0. by rewrite Hk.
      - cbn [hrefs map snd]. fold u0. fold (hrefs p).
        by rewrite reverse_cons, <- app_assoc. }
    destruct (accepted u0 && negb (bool_decide (u0 ∈ earlier))) eqn:Hk;
      [|intros; by apply Hskip].
    destruct o1 as [|e0 o1]; cbn [app].
    + intros [= <- <-]. exists [], query0, r0, rows.
      apply andb_true_iff in Hk as [_ Hd%negb_true_iff%bool_decide_eq_false].
      repeat split; [by apply not_elem_of_nil | done].
    + intros [= <- (p & query & r & s & -> & -> & Hp & He & -> & ->)%IH].
      apply not_elem_of_cons in He as [Hne He].
      exists ((query0, r0) :: p), query, r, s. repeat split; [| done | |].
      * cbn [hrefs map snd]. fold u0. by apply not_elem_of_cons.
      * rewrite first_appearances_cons. fold u0. by rewrite Hk.
      * cbn [hrefs map snd]. fold u0. fold (hrefs p).
        by rewrite reverse_cons, <- app_assoc.
Qed.

Lemma first_appearances_app (earlier : list string) (p s : list (string * Row)) :
  first_appearances earlier (p ++ s) =
  first_appearances earlier p ++ first_appearances (reverse (hrefs p) ++ earlier) s.
Proof.
  revert earlier. induction p as [|[query r] p IH]; intros earlier; [done |].
  cbn [app]. rewrite !first_appearances_cons, IH.
  cbn [hrefs map snd]. fold (hrefs p). rewrite reverse_cons, <- app_assoc. cbn [app].
  by destruct (_ && _).
Qed.

(** The first row that carries an accepted URL makes the entry for it. *)
Lemma first_appearances_first (p : list (string * Row)) (query : string) (r : Row)
    (s : list (string * Row)) :
  accepted (get r "href") = true ->
  get r "href" ∉ hrefs p ->
  first_appearances [] (p ++ (query, r) :: s) =
  first_appearances [] p ++
  entry_of query r :: first_appearances (get r "href" :: reverse (hrefs p)) s.
Proof.
  intros Hacc Hp. rewrite first_appearances_app, app_nil_r, first_appearances_cons.
  rewrite Hacc, bool_decide_eq_false_2; [done |].
  by rewrite elem_of_reverse.
Qed.

Lemma visited_app (A B : list (string * list Row)) :
  visited (A ++ B) = visited A ++ visited B.
Proof. apply flat_map_app. Qed.

Lemma visited_cons (query : string) (rows : list Row)
    (A : list (string * list Row)) :
  visited ((query, rows) :: A) = map (pair query) rows ++ visited A.
Proof. reflexivity. Qed.

Lemma hrefs_app (p s : list (string * Row)) : hrefs (p ++ s) = hrefs p ++ hrefs s.
Proof. apply map_app. Qed.

Lemma elem_of_hrefs (u : string) (rows : list (string * Row)) :
  u ∈ hrefs rows <-> exists query r, (query, r) ∈ rows /\ get r "href" = u.
Proof.
  unfold hrefs. rewrite list_elem_of_In, in_map_iff. split.
  - intros ([query r] & Hu & Hin%list_elem_of_In). by exists query, r.
  - intros (query & r & Hin%list_elem_of_In & Hu). by exists (query, r).
Qed.

Lemma elem_of_tagged (query query' : string) (r : Row) (rows : list Row) :
  (query', r) ∈ map (pair query) rows <-> query' = query /\ r ∈ rows.
Proof.
  rewrite !list_elem_of_In, in_map_iff. split.
  - by intros (r' & [= -> ->] & Hin).
  - intros [-> Hin]. by exists r.
Qed.

(** A successful run is [aggregate] of the provider's answers. *)
Lemma search_ok_inv {World : Type}
    (text : string -> Z -> World -> result (list Row) * World)
    (user : gmap string pyval) (n : Z) (w w' : World) (out : list SchemeResult) :
  duckduckgo_scheme_search text user n w = (Ok out, w') ->
  exists queries answers,
    build_queries user = Ok queries /\
    responses text n queries w = (Ok answers, w') /\
    out = first_appearances [] (visited answers).
Proof.
  rewrite duckduckgo_scheme_search_responses.
  destruct (build_queries user) as [queries|e]; [|done].
  destruct (responses text n queries w) as [[answers|e] w1] eqn:Hr; [|done].
  intros [= <- <-]. exists queries, answers.
  by rewrite aggregate_first_appearances.
Qed.

Lemma search_ok_intro {World : Type}
    (text : string -> Z -> World -> result (list Row) * World)
    (user : gmap string pyval) (n : Z) (w w' : World) (queries : list string)
    (answers : list (string * list Row)) :
  build_queries user = Ok queries ->
  responses text n queries w = (Ok answers, w') ->
  duckduckgo_scheme_search text user n w =
  (Ok (first_appearances [] (visited answers)), w').
Proof.
  intros Hq Hr. rewrite duckduckgo_scheme_search_responses, Hq, Hr.
  by rewrite aggregate_first_appearances.
Qed.

(** The first row with a given URL is determined by the list. *)
Lemma first_occurrence_unique {A : Type} (f : A -> string) (u : string)
    (l1 l1' : list A) (x x' : A) (l2 l2' : list A) :
  l1 ++ x :: l2 = l1' ++ x' :: l2' ->
  f x = u -> f x' = u ->
  (forall y, y ∈ l1 -> f y <> u) ->
  (forall y, y ∈ l1' -> f y <> u) ->
  l1 = l1' /\ x = x' /\ l2 = l2'.
Proof.
  revert l1'. induction l1 as [|y l1 IH]; intros [|y' l1']; cbn [app].
  - by intros [= -> ->].
  - intros [= -> _] Hx _ _ Hy. destruct (Hy y'); [by left | done].
  - intros [= -> _] _ Hx Hy _. destruct (Hy x'); [by left | done].
  - intros [= -> Heq] Hx Hx' Hy Hy'.
    destruct (IH l1' Heq Hx Hx') as (-> & -> & ->); [| |done].
    + intros z Hz. apply Hy. by right.
    + intros z Hz. apply Hy'. by right.
Qed.

Lemma first_appearances_complete (earlier : list string)
    (rows : list (string * Row)) (u : string) :
  accepted u = true -> u ∈ hrefs rows -> u ∉ earlier ->
  u ∈ url <$> first_appearances earlier rows.
Proof.
  intros Hacc. revert earlier.
  induction rows as [|[query r] rows IH]; intros earlier Hin Hne.
  - by apply elem_of_nil in Hin.
  - rewrite first_appearances_cons. cbn [hrefs map snd] in Hin. fold (hrefs rows) in Hin.
    destruct (decide (u = get r "href")) as [->|Hu].
    + rewrite Hacc, bool_decide_eq_false_2 by done. cbn [andb negb].
      rewrite fmap_cons. by left.
    + apply elem_of_cons in Hin as [?|Hin]; [done |].
      assert (u ∈ url <$> first_appearances (get r "href" :: earlier) rows) as Hrest.
      { apply IH; [done |]. by apply not_elem_of_cons. }
      destruct (_ && _); [|done]. rewrite fmap_cons. by right.
Qed.

Lemma run_rows_app (p s : list (string * Row)) (aggregated : pydict SchemeResult) :
  run_rows (p ++ s) aggregated = run_rows s (run_rows p aggregated).
Proof. apply fold_left_app. Qed.

Lemma aggregate_run_rows (answers : list (string * list Row)) :
  aggregate answers = dict_values (run_rows (visited answers) []).
Proof. unfold aggregate. by rewrite fold_answers_run_rows. Qed.

Lemma get_missing_or_empty (r : Row) (key : string) :
  r !! key = None \/ r !! key = Some "" -> get r key = "".
Proof. unfold get. by intros [-> | ->]. Qed.

Section ErrorFacts.
Context {World : Type}.
Variable text : string -> Z -> World -> result (list Row) * World.

Lemma responses_raise (n : Z) (qs1 : list string) (q : string)
    (qs2 : list string) (w w1 w2 : World) (answers : list (string * list Row))
    (e : exn) :
  responses text n qs1 w = (Ok answers, w1) ->
  text q n w1 = (Raise e, w2) ->
  responses text n (qs1 ++ q :: qs2) w = (Raise e, w2).
Proof.
  revert w answers. induction qs1 as [|q0 qs1 IH]; intros w answers; simpl.
  - intros [= _ <-] Ht. by rewrite Ht.
  - destruct (text q0 n w) as [[rows|e0] w0]; [|done].
    destruct (responses text n qs1 w0) as [[answers0|e0] w0'] eqn:Hr; [|done].
    intros [= _ <-] Ht. by rewrite (IH _ _ Hr Ht).
Qed.
End ErrorFacts.

(** * The claims *)

(** C1. In a successful run no two entries of the returned list have the
    same url. Each entry was built from the first visited row that carries
    its url. And the first visited row that carries a URL passing the
    filter is kept: the entry built from it is in the list, and it is the
    only entry with that url, so every later row with that url is
    dropped. *)
Theorem output_urls_unique {World : Type}
    (text : string -> Z -> World -> result (list Row) * World)
    (user : gmap string pyval) (n : Z) (w w' : World) (out : list SchemeResult) :
  duckduckgo_scheme_search text user n w = (Ok out, w') ->
  NoDup (url <$> out) /\
  exists queries answers,
    build_queries user = Ok queries /\
    responses text n queries w = (Ok answers, w') /\
    (forall e, e ∈ out ->
       exists p query r s,
         visited answers = p ++ (query, r) :: s /\
         e = entry_of query r /\
         forall query' r', (query', r') ∈ p -> get r' "href" <> url e) /\
    (forall p query r s,
       visited answers = p ++ (query, r) :: s ->
       accepted (get r "href") = true ->
       (forall query' r', (query', r') ∈ p -> get r' "href" <> get r "href") ->
       entry_of query r ∈ out /\
       forall e, e ∈ out -> url e = get r "href" -> e = entry_of query r).
Proof.
  intros (queries & answers & Hq & Hr & ->)%search_ok_inv. split.
  - apply first_appearances_NoDup.
  - exists queries, answers. split; [done |]. split; [done |]. split.
    + intros e (o1 & o2 & Ho)%list_elem_of_split.
      apply first_appearances_split in Ho
        as (p & query & r & s & Hv & -> & Hp & _).
      exists p, query, r, s. split; [done |]. split; [done |].
      intros query' r' Hin Heq. apply Hp, elem_of_hrefs. by exists query', r'.
    + intros p query r s Hv Hacc Hfirst.
      assert (get r "href" ∉ hrefs p) as Hp.
      { intros (query' & r' & Hin & Heq)%elem_of_hrefs. by eapply Hfirst. }
      rewrite Hv, first_appearances_first by done. split.
      * apply elem_of_app. right. by left.
      * intros e [Hin | [-> | Hin]%elem_of_cons]%elem_of_app Hu; [| done |].
        -- apply first_appearances_url in Hin as (Hin & _).
           by rewrite Hu in Hin.
        -- apply first_appearances_url in Hin as (_ & Hne & _).
           destruct Hne. rewrite Hu. by left.
Qed.

Lemma output_urls_unique_witness :
  NoDup (url <$> kerala_obc_schemes) /\
  exists queries answers,
    build_queries (dict kerala_obc) = Ok queries /\
    responses stub_text 10 queries tt = (Ok answers, tt) /\
    (forall e, e ∈ kerala_obc_schemes ->
       exists p query r s,
         visited answers = p ++ (query, r) :: s /\
         e = entry_of query r /\
         forall query' r', (query', r') ∈ p -> get r' "href" <> url e) /\
    (forall p query r s,
       visited answers = p ++ (query, r) :: s ->
       accepted (get r "href") = true ->
       (forall query' r', (query', r') ∈ p -> get r' "href" <> get r "href") ->
       entry_of query r ∈ kerala_obc_schemes /\
       forall e, e ∈ kerala_obc_schemes -> url e = get r "href" ->
         e = entry_of query r).
Proof.
  apply (output_urls_unique stub_text (dict kerala_obc) 10 tt tt kerala_obc_schemes).
  reflexivity.
Defined.

(** C2. For a profile whose [state] and [category] are non-empty strings,
    [build_queries] returns the four templates in their fixed order: four
    strings, none empty, the third being
    "Central sector scholarship income government" whatever the profile. *)
Theorem build_queries_four_templates (user : gmap string pyval) (st cat : string) :
  user !! "state" = Some (PyStr st) ->
  user !! "category" = Some (PyStr cat) ->
  st <> "" ->
  cat <> "" ->
  exists queries,
    build_queries user = Ok queries /\
    queries = [ st +:+ " student scholarship government";
                st +:+ " " +:+ cat +:+ " scholarship government";
                "Central sector scholarship income government";
                st +:+ " higher education scholarship official" ] /\
    length queries = 4 /\
    Forall (fun q => q <> "") queries /\
    queries !! 2 = Some "Central sector scholarship income government".
Proof.
  intros Hst Hcat _ _. eexists. split.
  - unfold build_queries, getitem. rewrite Hst, Hcat. reflexivity.
  - repeat split. repeat constructor; try discriminate; by destruct st.
Qed.

Lemma build_queries_four_templates_witness :
  exists queries,
    build_queries (dict kerala_obc) = Ok queries /\
    queries = [ "Kerala" +:+ " student scholarship government";
                "Kerala" +:+ " " +:+ "OBC" +:+ " scholarship government";
                "Central sector scholarship income government";
                "Kerala" +:+ " higher education scholarship official" ] /\
    length queries = 4 /\
    Forall (fun q => q <> "") queries /\
    queries !! 2 = Some "Central sector scholarship income government".
Proof.
  apply (build_queries_four_templates (dict kerala_obc) "Kerala" "OBC");
    [reflexivity | reflexivity | discriminate | discriminate].
Defined.

(** C3. When a URL is returned for two queries, whatever entry the output
    has for it is the one built from the first row that carried it: its
    source_query is the earlier query, its title and snippet are that
    row's, no other entry has the URL, and the URL has an entry as soon as
    it passes the filter. *)
Theorem first_query_wins {World : Type}
    (text : string -> Z -> World -> result (list Row) * World)
    (user : gmap string pyval) (n : Z) (w w' : World) (queries : list string)
    (A1 : list (string * list Row)) (q1 : string) (a : list Row) (r1 : Row)
    (b : list Row) (A2 : list (string * list Row)) (q2 : string)
    (rows2 : list Row) (A3 : list (string * list Row)) (r2 : Row) (u : string) :
  build_queries user = Ok queries ->
  responses text n queries w =
    (Ok (A1 ++ (q1, a ++ r1 :: b) :: A2 ++ (q2, rows2) :: A3), w') ->
  get r1 "href" = u ->
  r2 ∈ rows2 ->
  get r2 "href" = u ->
  (forall query r, (query, r) ∈ visited A1 -> get r "href" <> u) ->
  (forall r, r ∈ a -> get r "href" <> u) ->
  exists out,
    duckduckgo_scheme_search text user n w = (Ok out, w') /\
    (forall o1 e o2, out = o1 ++ e :: o2 -> url e = u ->
       e = {| title := get r1 "title"; url := u; snippet := get r1 "body";
              source_query := q1 |} /\
       (u ∉ url <$> o1) /\ (u ∉ url <$> o2)) /\
    (accepted u = true -> u ∈ url <$> out).
Proof.
  intros Hq Hr Hu1 _ _ HA1 Ha. eexists. split; [by eapply search_ok_intro |].
  set (P := visited A1 ++ map (pair q1) a).
  set (S := map (pair q1) b ++ visited (A2 ++ (q2, rows2) :: A3)).
  assert (visited (A1 ++ (q1, a ++ r1 :: b) :: A2 ++ (q2, rows2) :: A3) =
          P ++ (q1, r1) :: S) as ->.
  { unfold P, S. rewrite visited_app, visited_cons, map_app. cbn [map].
    by rewrite <- !app_assoc. }
  assert (forall qr, qr ∈ P -> get (snd qr) "href" <> u) as HP.
  { intros [query r] [Hin|Hin]%elem_of_app; [by eapply HA1 |].
    apply elem_of_tagged in Hin as [_ Hin]. by apply Ha. }
  split.
  - intros o1 e o2 Ho Hue.
    apply first_appearances_split in Ho
      as (p & query & r & s & Hv & -> & Hp & _ & -> & ->).
    cbn [entry_of url] in Hue.
    destruct (first_occurrence_unique (fun qr => get (snd qr) "href") u
                P p (q1, r1) (query, r) S s) as (<- & [= <- <-] & <-);
      [done.. | |].
    { intros qr Hin Heq. apply Hp. rewrite Hue, <- Heq.
      apply elem_of_hrefs. destruct qr as [query' r']. by exists query', r'. }
    unfold entry_of. rewrite Hu1. repeat split.
    + intros (e & He & Hin)%list_elem_of_fmap.
      apply first_appearances_url in Hin as (Hin & _).
      apply elem_of_hrefs in Hin as (query' & r' & Hin & Heq).
      apply (HP _ Hin). by rewrite He.
    + intros (e & He & Hin)%list_elem_of_fmap.
      apply first_appearances_url in Hin as (_ & Hne & _).
      apply Hne. rewrite <- He. by left.
  - intros Hacc. rewrite first_appearances_first.
    + rewrite fmap_app, fmap_cons, elem_of_app. right.
      cbn [entry_of url]. rewrite Hu1. left.
    + by rewrite Hu1.
    + rewrite Hu1. intros (query' & r' & Hin & Heq)%elem_of_hrefs.
      by apply (HP _ Hin).
Qed.

Lemma first_query_wins_witness :
  exists out,
    duckduckgo_scheme_search stub_text (dict kerala_obc) 10 tt = (Ok out, tt) /\
    (forall o1 e o2, out = o1 ++ e :: o2 ->
       url e = "https://scholarships.gov.in/x" ->
       e = {| title := get row_A "title"; url := "https://scholarships.gov.in/x";
              snippet := get row_A "body";
              source_query := "Kerala student scholarship government" |} /\
       ("https://scholarships.gov.in/x" ∉ url <$> o1) /\
       ("https://scholarships.gov.in/x" ∉ url <$> o2)) /\
    (accepted "https://scholarships.gov.in/x" = true ->
     "https://scholarships.gov.in/x" ∈ url <$> out).
Proof.
  apply (first_query_wins stub_text (dict kerala_obc) 10 tt tt
           [ "Kerala student scholarship government";
             "Kerala OBC scholarship government";
             "Central sector scholarship income government";
             "Kerala higher education scholarship official" ]
           [] "Kerala student scholarship government"
           [] row_A [row_example; row_no_href; row_empty_href]
           [] "Kerala OBC scholarship government"
           [row_fake; row_A2; row_bare; row_A_untitled]
           [ ("Central sector scholarship income government", []);
             ("Kerala higher education scholarship official", []) ]
           row_A2 "https://scholarships.gov.in/x").
  - reflexivity.
  - reflexivity.
  - reflexivity.
  - apply list_elem_of_further, list_elem_of_here.
  - reflexivity.
  - intros query r Hin. by apply elem_of_nil in Hin.
  - intros r Hin. by apply elem_of_nil in Hin.
Defined.

(** C4. In a successful run every entry's url contains one of the
    ALLOWED_DOMAINS as a substring, compared character by character; a
    row whose url contains none of them is skipped by the loop body and
    its url is the url of no entry. *)
Theorem output_urls_allowed {World : Type}
    (text : string -> Z -> World -> result (list Row) * World)
    (user : gmap string pyval) (n : Z) (w w' : World) (out : list SchemeResult) :
  duckduckgo_scheme_search text user n w = (Ok out, w') ->
  (forall e, e ∈ out ->
     exists domain, domain ∈ ALLOWED_DOMAINS /\ substring_of domain (url e)) /\
  (forall r : Row,
     (forall domain, domain ∈ ALLOWED_DOMAINS ->
        ~ substring_of domain (get r "href")) ->
     (forall query aggregated, process_row query r aggregated = aggregated) /\
     (get r "href" ∉ url <$> out)).
Proof.
  intros (queries & answers & Hq & Hr & ->)%search_ok_inv.
  assert (forall e, e ∈ first_appearances [] (visited answers) ->
            exists domain, domain ∈ ALLOWED_DOMAINS /\ substring_of domain (url e))
    as Hall.
  { intros e (_ & _ & Hacc)%first_appearances_url.
    by apply accepted_spec in Hacc as [_ Hd]. }
  split; [done |]. intros r Hnone. split.
  - intros query aggregated. rewrite process_row_eq.
    destruct (accepted (get r "href")) eqn:Hacc; [|done].
    apply accepted_spec in Hacc as [_ (domain & Hd & Hs)]. by destruct (Hnone domain).
  - intros (e & He & (domain & Hd & Hs)%Hall)%list_elem_of_fmap.
    apply (Hnone domain Hd). by rewrite He.
Qed.

Lemma output_urls_allowed_witness :
  (forall e, e ∈ kerala_obc_schemes ->
     exists domain, domain ∈ ALLOWED_DOMAINS /\ substring_of domain (url e)) /\
  (forall r : Row,
     (forall domain, domain ∈ ALLOWED_DOMAINS ->
        ~ substring_of domain (get r "href")) ->
     (forall query aggregated, process_row query r aggregated = aggregated) /\
     (get r "href" ∉ url <$> kerala_obc_schemes)).
Proof.
  apply (output_urls_allowed stub_text (dict kerala_obc) 10 tt tt kerala_obc_schemes).
  reflexivity.
Defined.

(** C5. The allow-list check is a substring test on the whole URL: the row
    with url "https://fakegov.in.example.com/x" has "gov.in" inside its
    url, its host "fakegov.in.example.com" does not end in "gov.in", it
    passes the filter, every successful run that visits it returns an
    entry with its url, and the stub run returns the entry built from it. *)
Theorem substring_filter_admits_foreign_host :
  exists (r : Row) (host : string),
    get r "href" = "https://" +:+ host +:+ "/x" /\
    substring_of "gov.in" (get r "href") /\
    ~ ends_with "gov.in" host /\
    accepted (get r "href") = true /\
    (forall (World : Type)
            (text : string -> Z -> World -> result (list Row) * World)
            (user : gmap string pyval) (n : Z) (w w' : World)
            (queries : list string) (answers : list (string * list Row))
            (query : string),
       build_queries user = Ok queries ->
       responses text n queries w = (Ok answers, w') ->
       (query, r) ∈ visited answers ->
       exists out,
         duckduckgo_scheme_search text user n w = (Ok out, w') /\
         get r "href" ∈ url <$> out) /\
    exists out,
      duckduckgo_scheme_search stub_text (dict kerala_obc) 10 tt = (Ok out, tt) /\
      entry_of "Kerala OBC scholarship government" r ∈ out.
Proof.
  exists row_fake, "fakegov.in.example.com".
  assert (accepted (get row_fake "href") = true) as Hacc by reflexivity.
  split; [reflexivity |]. split; [| split; [| split; [done | split]]].
  - exists "https://fake", ".example.com/x". reflexivity.
  - intros [before Hb]. revert Hb.
    do 22 (destruct before as [|? before];
           [by rewrite append_nil | rewrite append_cons; intros [= _ Hb]; revert Hb]).
    by destruct before.
  - intros World text user n w w' queries answers query Hq Hr Hin.
    eexists. split; [by eapply search_ok_intro |].
    apply first_appearances_complete; [done | | apply not_elem_of_nil].
    apply elem_of_hrefs. by exists query, row_fake.
  - exists kerala_obc_schemes. split; [reflexivity |].
    apply list_elem_of_further, list_elem_of_here.
Qed.

(** C6. A row whose href is missing or empty is skipped by the loop body
    without an exception, and the run returns exactly what it returns
    without that row; no entry has the row's url. *)
Theorem missing_href_skipped {World : Type}
    (text : string -> Z -> World -> result (list Row) * World)
    (user : gmap string pyval) (n : Z) (w w' : World) (queries : list string)
    (A1 : list (string * list Row)) (query : string) (a : list Row) (r : Row)
    (b : list Row) (A2 : list (string * list Row)) :
  r !! "href" = None \/ r !! "href" = Some "" ->
  build_queries user = Ok queries ->
  responses text n queries w = (Ok (A1 ++ (query, a ++ r :: b) :: A2), w') ->
  (forall aggregated, process_row query r aggregated = aggregated) /\
  exists out,
    duckduckgo_scheme_search text user n w = (Ok out, w') /\
    out = aggregate (A1 ++ (query, a ++ b) :: A2) /\
    forall e, e ∈ out -> url e <> get r "href".
Proof.
  intros Hhref%get_missing_or_empty Hq Hr.
  assert (forall aggregated, process_row query r aggregated = aggregated) as Hskip.
  { intros aggregated. by rewrite process_row_eq, Hhref. }
  split; [done |]. eexists. split; [by eapply search_ok_intro |]. split.
  - rewrite <- aggregate_first_appearances, !aggregate_run_rows.
    rewrite !visited_app, !visited_cons, !map_app. cbn [map].
    rewrite !run_rows_app. cbn [run_rows fold_left fst snd]. by rewrite Hskip.
  - intros e (_ & _ & Hacc)%first_appearances_url. rewrite Hhref.
    intros Heq. by rewrite Heq in Hacc.
Qed.

Lemma missing_href_skipped_witness :
  (forall aggregated,
     process_row "Kerala student scholarship government" row_no_href aggregated =
     aggregated) /\
  exists out,
    duckduckgo_scheme_search stub_text (dict kerala_obc) 10 tt = (Ok out, tt) /\
    out = aggregate
            ([] ++ ("Kerala student scholarship government",
                    [row_A; row_example] ++ [row_empty_href])
                :: [ ("Kerala OBC scholarship government",
                      [row_fake; row_A2; row_bare; row_A_untitled]);
                     ("Central sector scholarship income government", []);
                     ("Kerala higher education scholarship official", []) ]) /\
    forall e, e ∈ out -> url e <> get row_no_href "href".
Proof.
  apply (missing_href_skipped stub_text (dict kerala_obc) 10 tt tt
           [ "Kerala student scholarship government";
             "Kerala OBC scholarship government";
             "Central sector scholarship income government";
             "Kerala higher education scholarship official" ]).
  - left. reflexivity.
  - reflexivity.
  - reflexivity.
Defined.

(** C7. When the provider raises on one of the queries, after answering
    the queries before it, the aggregator ends with that same exception:
    it returns no list, so nothing gathered from the earlier queries
    comes back. *)
Theorem provider_error_propagates {World : Type}
    (text : string -> Z -> World -> result (list Row) * World)
    (user : gmap string pyval) (n : Z) (w w1 w2 : World)
    (qs1 : list string) (q : string) (qs2 : list string)
    (answers : list (string * list Row)) (e : exn) :
  build_queries user = Ok (qs1 ++ q :: qs2) ->
  responses text n qs1 w = (Ok answers, w1) ->
  text q n w1 = (Raise e, w2) ->
  duckduckgo_scheme_search text user n w = (Raise e, w2) /\
  forall out w', duckduckgo_scheme_search text user n w <> (Ok out, w').
Proof.
  intros Hq Hr Ht.
  assert (duckduckgo_scheme_search text user n w = (Raise e, w2)) as Hs.
  { rewrite duckduckgo_scheme_search_responses, Hq.
    by rewrite (responses_raise text n qs1 q qs2 w w1 w2 answers e Hr Ht). }
  split; [done |]. intros out w'. by rewrite Hs.
Qed.

Lemma provider_error_propagates_witness :
  duckduckgo_scheme_search failing_text (dict kerala_obc) 10 tt =
    (Raise (ProviderError "ratelimit"), tt) /\
  forall out w',
    duckduckgo_scheme_search failing_text (dict kerala_obc) 10 tt <> (Ok out, w').
Proof.
  apply (provider_error_propagates failing_text (dict kerala_obc) 10 tt tt tt
           [ "Kerala student scholarship government";
             "Kerala OBC scholarship government" ]
           "Central sector scholarship income government"
           [ "Kerala higher education scholarship official" ]
           [ ("Kerala student scholarship government",
              [row_A; row_example; row_no_href; row_empty_href]);
             ("Kerala OBC scholarship government",
              [row_fake; row_A2; row_bare; row_A_untitled]) ]
           (ProviderError "ratelimit")).
  - reflexivity.
  - reflexivity.
  - reflexivity.
Defined.

(** C8. When the aggregator succeeds, the endpoint answers with an
    envelope whose query_state is the profile's state, whose schemes are
    the aggregator's list, whose count is the length of that list and
    whose disclaimer is the fixed sentence. *)
Theorem find_schemes_envelope {World : Type}
    (text : string -> Z -> World -> result (list Row) * World)
    (user : UserProfile) (w w' : World) (out : list SchemeResult) :
  duckduckgo_scheme_search text (dict user) 10 w = (Ok out, w') ->
  exists env,
    find_schemes text user w = (Ok env, w') /\
    query_state env = state user /\
    count env = Z.of_nat (length (schemes env)) /\
    schemes env = out /\
    disclaimer env =
      "Final eligibility is determined by the concerned government department.".
Proof.
  intros Hs. unfold find_schemes. rewrite Hs. eexists. by repeat split.
Qed.

Lemma find_schemes_envelope_witness :
  exists env,
    find_schemes stub_text kerala_obc tt = (Ok env, tt) /\
    query_state env = "Kerala" /\
    count env = Z.of_nat (length (schemes env)) /\
    schemes env = kerala_obc_schemes /\
    disclaimer env =
      "Final eligibility is determined by the concerned government department.".
Proof.
  apply (find_schemes_envelope stub_text kerala_obc tt tt kerala_obc_schemes).
  reflexivity.
Defined.

(** C9. The returned list is in insertion order: the provider is asked the
    queries of [build_queries] in their order, the list is what one pass
    over the visited rows yields when each accepted URL makes an entry at
    its first appearance, and of two entries the earlier one comes from a
    row visited earlier, each from the first row with its url. *)
Theorem output_in_insertion_order {World : Type}
    (text : string -> Z -> World -> result (list Row) * World)
    (user : gmap string pyval) (n : Z) (w w' : World) (out : list SchemeResult) :
  duckduckgo_scheme_search text user n w = (Ok out, w') ->
  exists queries answers,
    build_queries user = Ok queries /\
    responses text n queries w = (Ok answers, w') /\
    answers.*1 = queries /\
    out = first_appearances [] (visited answers) /\
    forall o1 e1 o2 e2 o3, out = o1 ++ e1 :: o2 ++ e2 :: o3 ->
      exists p1 q1 r1 p2 q2 r2 p3,
        visited answers = p1 ++ (q1, r1) :: p2 ++ (q2, r2) :: p3 /\
        e1 = entry_of q1 r1 /\
        e2 = entry_of q2 r2 /\
        (url e1 ∉ hrefs p1) /\
        (url e2 ∉ hrefs (p1 ++ (q1, r1) :: p2)).
Proof.
  intros (queries & answers & Hq & Hr & ->)%search_ok_inv.
  exists queries, answers. repeat split; [done | done | by eapply responses_queries |].
  intros o1 e1 o2 e2 o3 Ho.
  apply first_appearances_split in Ho
    as (p1 & q1 & r1 & s1 & Hv & -> & Hp1 & _ & _ & Ho). symmetry in Ho.
  apply first_appearances_split in Ho
    as (p2 & q2 & r2 & p3 & -> & -> & Hp2 & He2 & _).
  exists p1, q1, r1, p2, q2, r2, p3. repeat split; [done.. |].
  cbn [entry_of url]. rewrite hrefs_app. cbn [hrefs map snd]. fold (hrefs p2).
  apply not_elem_of_cons in He2 as [Hne He2].
  rewrite app_nil_r, elem_of_reverse in He2.
  rewrite not_elem_of_app, not_elem_of_cons. done.
Qed.

Lemma output_in_insertion_order_witness :
  exists queries answers,
    build_queries (dict kerala_obc) = Ok queries /\
    responses stub_text 10 queries tt = (Ok answers, tt) /\
    answers.*1 = queries /\
    kerala_obc_schemes = first_appearances [] (visited answers) /\
    forall o1 e1 o2 e2 o3, kerala_obc_schemes = o1 ++ e1 :: o2 ++ e2 :: o3 ->
      exists p1 q1 r1 p2 q2 r2 p3,
        visited answers = p1 ++ (q1, r1) :: p2 ++ (q2, r2) :: p3 /\
        e1 = entry_of q1 r1 /\
        e2 = entry_of q2 r2 /\
        (url e1 ∉ hrefs p1) /\
        (url e2 ∉ hrefs (p1 ++ (q1, r1) :: p2)).
Proof.
  apply (output_in_insertion_order stub_text (dict kerala_obc) 10 tt tt
           kerala_obc_schemes).
  reflexivity.
Defined.

(** C10, as first stated, fails: a row with an allowed, non-empty url and
    no title is visited in the stub run, yet the run returns no entry built
    from it and no entry with its url and an empty title, because an
    earlier row already carried that url. *)
Lemma untitled_duplicate_dropped :
  row_A_untitled !! "title" = None /\
  get row_A_untitled "href" <> "" /\
  (exists domain,
     domain ∈ ALLOWED_DOMAINS /\ substring_of domain (get row_A_untitled "href")) /\
  (exists answers,
     responses stub_text 10
       [ "Kerala student scholarship government";
         "Kerala OBC scholarship government";
         "Central sector scholarship income government";
         "Kerala higher education scholarship official" ] tt = (Ok answers, tt) /\
     ("Kerala OBC scholarship government", row_A_untitled) ∈ visited answers) /\
  duckduckgo_scheme_search stub_text (dict kerala_obc) 10 tt =
    (Ok kerala_obc_schemes, tt) /\
  (entry_of "Kerala OBC scholarship government" row_A_untitled
     ∉ kerala_obc_schemes) /\
  ~ exists e,
      e ∈ kerala_obc_schemes /\
      url e = get row_A_untitled "href" /\ title e = "".
Proof.
  split; [reflexivity |]. split; [discriminate |]. split.
  { apply accepted_spec. reflexivity. }
  split.
  { eexists. split; [reflexivity |].
    do 7 apply list_elem_of_further. apply list_elem_of_here. }
  split; [reflexivity |]. split.
  - intros Hin. repeat (apply elem_of_cons in Hin as [Hin|Hin]; [discriminate |]).
    by apply elem_of_nil in Hin.
  - intros (e & Hin & Hu & Ht).
    repeat (apply elem_of_cons in Hin as [->|Hin]; [discriminate |]).
    by apply elem_of_nil in Hin.
Qed.

(** C10, amended. A row with an allowed, non-empty url that no earlier row
    of the run carried is included in the output, with an empty title when
    it has no title and an empty snippet when it has no body; and the loop
    body discards a row exactly when its url is missing or empty, contains
    no allowed domain, or is already a key of the accumulator, so never for
    a missing title or body. *)
Theorem missing_title_or_body_defaults {World : Type}
    (text : string -> Z -> World -> result (list Row) * World)
    (user : gmap string pyval) (n : Z) (w w' : World) (queries : list string)
    (answers : list (string * list Row)) (p : list (string * Row))
    (query : string) (r : Row) (s : list (string * Row)) :
  build_queries user = Ok queries ->
  responses text n queries w = (Ok answers, w') ->
  visited answers = p ++ (query, r) :: s ->
  get r "href" <> "" ->
  (exists domain,
     domain ∈ ALLOWED_DOMAINS /\ substring_of domain (get r "href")) ->
  (forall query' r', (query', r') ∈ p -> get r' "href" <> get r "href") ->
  (exists out e,
     duckduckgo_scheme_search text user n w = (Ok out, w') /\
     e ∈ out /\
     url e = get r "href" /\
     source_query e = query /\
     (r !! "title" = None -> title e = "") /\
     (r !! "body" = None -> snippet e = "") /\
     (forall t, r !! "title" = Some t -> title e = t) /\
     (forall t, r !! "body" = Some t -> snippet e = t)) /\
  (forall (query0 : string) (r0 : Row) (aggregated : pydict SchemeResult),
     process_row query0 r0 aggregated = aggregated <->
     get r0 "href" = "" \/
     (forall domain, domain ∈ ALLOWED_DOMAINS ->
        ~ substring_of domain (get r0 "href")) \/
     get r0 "href" ∈ aggregated.*1).
Proof.
  intros Hq Hr Hv Hne Hdom Hfirst.
  assert (accepted (get r "href") = true) as Hacc by by apply accepted_spec.
  split.
  - eexists _, (entry_of query r). split; [by eapply search_ok_intro |].
    rewrite Hv, first_appearances_first; [| done |].
    + split; [apply elem_of_app; right; by left |].
      unfold entry_of, get. cbn. repeat split; by intros; simplify_option_eq.
    + intros (query' & r' & Hin & Heq)%elem_of_hrefs. by eapply Hfirst.
  - intros query0 r0 aggregated. rewrite process_row_eq.
    destruct (accepted (get r0 "href")) eqn:Hacc0; cbn [andb].
    + apply accepted_spec in Hacc0 as [Hne0 (domain & Hd & Hs)].
      destruct (dict_contains (get r0 "href") aggregated) eqn:Hc; cbn [negb].
      * apply dict_contains_elem_of in Hc. by split; [right; right |].
      * split.
        -- intros Heq. apply (f_equal length) in Heq.
           rewrite length_app in Heq. cbn in Heq. lia.
        -- intros [? | [Hnone | Hin%dict_contains_elem_of]];
             [done | by destruct (Hnone domain) | congruence].
    + split; [intros _ | done].
      destruct (decide (get r0 "href" = "")) as [?|Hne0]; [by left |].
      right. left. intros domain Hd Hs.
      assert (accepted (get r0 "href") = true); [|congruence].
      apply accepted_spec. split; [done | by exists domain].
Qed.

Lemma missing_title_or_body_defaults_witness :
  (exists out e,
     duckduckgo_scheme_search stub_text (dict kerala_obc) 10 tt = (Ok out, tt) /\
     e ∈ out /\
     url e = get row_bare "href" /\
     source_query e = "Kerala OBC scholarship government" /\
     (row_bare !! "title" = None -> title e = "") /\
     (row_bare !! "body" = None -> snippet e = "") /\
     (forall t, row_bare !! "title" = Some t -> title e = t) /\
     (forall t, row_bare !! "body" = Some t -> snippet e = t)) /\
  (forall (query0 : string) (r0 : Row) (aggregated : pydict SchemeResult),
     process_row query0 r0 aggregated = aggregated <->
     get r0 "href" = "" \/
     (forall domain, domain ∈ ALLOWED_DOMAINS ->
        ~ substring_of domain (get r0 "href")) \/
     get r0 "href" ∈ aggregated.*1).
Proof.
  apply (missing_title_or_body_defaults stub_text (dict kerala_obc) 10 tt tt
           [ "Kerala student scholarship government";
             "Kerala OBC scholarship government";
             "Central sector scholarship income government";
             "Kerala higher education scholarship official" ]
           [ ("Kerala student scholarship government",
              [row_A; row_example; row_no_href; row_empty_href]);
             ("Kerala OBC scholarship government",
              [row_fake; row_A2; row_bare; row_A_untitled]);
             ("Central sector scholarship income government", []);
             ("Kerala higher education scholarship official", []) ]
           [ ("Kerala student scholarship government", row_A);
             ("Kerala student scholarship government", row_example);
             ("Kerala student scholarship government", row_no_href);
             ("Kerala student scholarship government", row_empty_href);
             ("Kerala OBC scholarship government", row_fake);
             ("Kerala OBC scholarship government", row_A2) ]
           "Kerala OBC scholarship government" row_bare
           [ ("Kerala OBC scholarship government", row_A_untitled) ]).
  - reflexivity.
  - reflexivity.
  - reflexivity.
  - discriminate.
  - exists "gov.in". split; [apply list_elem_of_here |].
    exists "https://kerala.", "/s". reflexivity.
  - intros query' r' Hin.
    repeat (apply elem_of_cons in Hin as [[= -> ->]|Hin]; [discriminate |]).
    by apply elem_of_nil in Hin.
Defined.

(** * Further properties of the code *)

(** ** The query builder and the profile *)

Lemma build_queries_present (user : gmap string pyval) (v c : pyval) :
  user !! "state" = Some v ->
  user !! "category" = Some c ->
  build_queries user = Ok (queries_of (py_format v) (py_format c)).
Proof.
  intros Hv Hc. unfold build_queries, getitem. by rewrite Hv, Hc.
Qed.

Lemma build_queries_dict (user : UserProfile) :
  build_queries (dict user) = Ok (queries_of (state user) (category user)).
Proof.
  by apply (build_queries_present _ (PyStr (state user)) (PyStr (category user))).
Qed.



(** X2. The aggregator reads nothing of the profile but "state" and
    "category": two profile dicts that agree on these two keys get the
    same result from the same provider in the same world. *)
Theorem search_reads_state_and_category {World : Type}
    (text : string -> Z -> World -> result (list Row) * World)
    (user1 user2 : gmap string pyval) (n : Z) (w : World) :
  user1 !! "state" = user2 !! "state" ->
  user1 !! "category" = user2 !! "category" ->
  duckduckgo_scheme_search text user1 n w =
  duckduckgo_scheme_search text user2 n w.
Proof.
  intros Hs Hc. unfold duckduckgo_scheme_search, build_queries, getitem.
  by rewrite Hs, Hc.
Qed.

Lemma search_reads_state_and_category_witness :
  duckduckgo_scheme_search stub_text (dict kerala_obc) 10 tt =
  duckduckgo_scheme_search stub_text (dict kerala_obc_retired) 10 tt.
Proof.
  apply (search_reads_state_and_category stub_text (dict kerala_obc)
           (dict kerala_obc_retired) 10 tt); reflexivity.
Defined.

Section ProviderFailure.
Context {World : Type}.
Variable text : string -> Z -> World -> result (list Row) * World.

(** A failed run of the calls stopped at the first query the provider
    refused. *)
Lemma responses_raise_inv (n : Z) (queries : list string) (w w' : World)
    (e : exn) :
  responses text n queries w = (Raise e, w') ->
  exists qs1 q qs2 answers w1,
    queries = qs1 ++ q :: qs2 /\
    responses text n qs1 w = (Ok answers, w1) /\
    text q n w1 = (Raise e, w').
Proof.
  revert w. induction queries as [|q0 queries IH]; intros w; simpl; [done |].
  destruct (text q0 n w) as [[rows|e0] w0] eqn:Ht.
  - destruct (responses text n queries w0) as [[answers0|e0] w0'] eqn:Hr; [done |].
    intros [= -> ->].
    destruct (IH _ Hr) as (qs1 & q & qs2 & answers & w1 & -> & Hr1 & Hq).
    exists (q0 :: qs1), q, qs2, ((q0, rows) :: answers), w1.
    split; [done |]. split; [|done]. simpl. by rewrite Ht, Hr1.
  - intros [= -> ->]. by exists [], q0, queries, [], w.
Qed.
End ProviderFailure.

(** X3. The endpoint raises nothing of its own: when it ends in an
    exception, the provider answered the queries before some query of the
    four built from the profile's state and category and raised that very
    exception on it, each call being made with max_results 10. *)
Theorem find_schemes_fails_only_with_provider {World : Type}
    (text : string -> Z -> World -> result (list Row) * World)
    (user : UserProfile) (w w' : World) (e : exn) :
  find_schemes text user w = (Raise e, w') ->
  exists qs1 q qs2 answers w1,
    queries_of (state user) (category user) = qs1 ++ q :: qs2 /\
    responses text 10 qs1 w = (Ok answers, w1) /\
    text q 10%Z w1 = (Raise e, w').
Proof.
  unfold find_schemes.
  rewrite duckduckgo_scheme_search_responses, build_queries_dict.
  destruct (responses text 10 _ w) as [[answers|e0] w0] eqn:Hr; [done |].
  intros [= -> ->]. by eapply responses_raise_inv.
Qed.

Lemma find_schemes_fails_only_with_provider_witness :
  exists qs1 q qs2 answers w1,
    queries_of (state kerala_obc) (category kerala_obc) = qs1 ++ q :: qs2 /\
    responses failing_text 10 qs1 tt = (Ok answers, w1) /\
    failing_text q 10 w1 = (Raise (ProviderError "ratelimit"), tt).
Proof.
  apply (find_schemes_fails_only_with_provider failing_text kerala_obc tt tt
           (ProviderError "ratelimit")).
  reflexivity.
Defined.

(** ** The allow-list *)

Lemma append_assoc (a b c : string) : (a +:+ b) +:+ c = a +:+ b +:+ c.
Proof.
  induction a as [|x a IH]; [done |]. by rewrite !append_cons, IH.
Qed.

Lemma substring_of_trans (a b c : string) :
  substring_of a b -> substring_of b c -> substring_of a c.
Proof.
  intros (p1 & s1 & ->) (p2 & s2 & ->). exists (p2 +:+ p1), (s1 +:+ s2).
  by rewrite !append_assoc.
Qed.

Lemma substring_of_nonempty (sub s : string) :
  sub <> "" -> substring_of sub s -> s <> "".
Proof.
  intros Hsub (p & q & ->). destruct p as [|x p]; [|done].
  rewrite append_nil. by destruct sub.
Qed.

Lemma allowed_domains_contain_gov_in (domain : string) :
  domain ∈ ALLOWED_DOMAINS -> substring_of "gov.in" domain.
Proof.
  unfold ALLOWED_DOMAINS. rewrite !elem_of_cons, elem_of_nil.
  intros [->|[->|[->|[->|[->|[->|[->|[]]]]]]]].
  - by exists "", "".
  - by exists "kerala.", "".
  - by exists "scholarships.", "".
  - by exists "my", "".
  - by exists "india.", "".
  - by exists "cdc.kerala.", "".
  - by exists "dcescholarship.kerala.", "".
Qed.

(** X4. Every entry of ALLOWED_DOMAINS contains "gov.in", so the filter of
    lines 33-37 lets a URL through exactly when "gov.in" occurs in it: the
    six longer domains never decide, and neither does the emptiness test. *)
Theorem allow_list_is_gov_in (u : string) :
  accepted u = str_in "gov.in" u.
Proof.
  apply eq_true_iff_eq. rewrite accepted_spec, str_in_spec. split.
  - intros [_ (domain & Hd & Hs)].
    apply (substring_of_trans _ domain);
      [by apply allowed_domains_contain_gov_in | done].
  - intros Hs. split; [by apply (substring_of_nonempty "gov.in") |].
    exists "gov.in". split; [apply list_elem_of_here | done].
Qed.

(** ** What a run returns *)

(** X5. A URL is the url of an entry of the output exactly when some row
    the provider returned carries it and it passes the filter: no URL is
    invented and no accepted URL is lost. *)
Theorem output_urls_exactly_accepted {World : Type}
    (text : string -> Z -> World -> result (list Row) * World)
    (user : gmap string pyval) (n : Z) (w w' : World) (queries : list string)
    (answers : list (string * list Row)) (out : list SchemeResult)
    (u : string) :
  build_queries user = Ok queries ->
  responses text n queries w = (Ok answers, w') ->
  duckduckgo_scheme_search text user n w = (Ok out, w') ->
  u ∈ url <$> out <->
  accepted u = true /\
  exists query r, (query, r) ∈ visited answers /\ get r "href" = u.
Proof.
  intros Hq Hr Hs.
  rewrite (search_ok_intro text user n w w' queries answers Hq Hr) in Hs.
  injection Hs as <-. rewrite <- elem_of_hrefs. split.
  - intros (e & -> & (Hin & _ & Hacc)%first_appearances_url)%list_elem_of_fmap.
    done.
  - intros [Hacc Hin]. apply first_appearances_complete; [done.. |].
    apply not_elem_of_nil.
Qed.

Lemma output_urls_exactly_accepted_witness :
  "https://kerala.gov.in/s" ∈ url <$> kerala_obc_schemes <->
  accepted "https://kerala.gov.in/s" = true /\
  exists query r,
    (query, r) ∈ visited
      [ ("Kerala student scholarship government",
         [row_A; row_example; row_no_href; row_empty_href]);
        ("Kerala OBC scholarship government",
         [row_fake; row_A2; row_bare; row_A_untitled]);
        ("Central sector scholarship income government", []);
        ("Kerala higher education scholarship official", []) ] /\
    get r "href" = "https://kerala.gov.in/s".
Proof.
  apply (output_urls_exactly_accepted stub_text (dict kerala_obc) 10 tt tt
           (queries_of "Kerala" "OBC")); reflexivity.
Defined.

Lemma first_appearances_length (earlier : list string) (rows : list (string * Row)) :
  length (first_appearances earlier rows) <= length rows.
Proof.
  revert earlier. induction rows as [|[query r] rows IH]; intros earlier; [done |].
  rewrite first_appearances_cons.
  pose proof (IH (get r "href" :: earlier)). destruct (_ && _); simpl; lia.
Qed.

Lemma visited_length (answers : list (string * list Row)) (m : nat) :
  Forall (fun a => length (snd a) <= m) answers ->
  length (visited answers) <= length answers * m.
Proof.
  induction 1 as [|[query rows] answers Hm _ IH]; [done |].
  rewrite visited_cons, length_app, length_map. simpl in *. lia.
Qed.

Lemma build_queries_length (user : gmap string pyval) (queries : list string) :
  build_queries user = Ok queries -> length queries = 4.
Proof.
  unfold build_queries, getitem.
  destruct (user !! "state"); [|done]. destruct (user !! "category"); [|done].
  by intros [= <-].
Qed.

(** X6. The output never has more entries than the provider returned
    rows; when the provider returns at most m rows per query, as
    max_results asks of it, the output has at most 4 m entries. *)
Theorem output_length_bounded {World : Type}
    (text : string -> Z -> World -> result (list Row) * World)
    (user : gmap string pyval) (n : Z) (w w' : World) (queries : list string)
    (answers : list (string * list Row)) (out : list SchemeResult) :
  build_queries user = Ok queries ->
  responses text n queries w = (Ok answers, w') ->
  duckduckgo_scheme_search text user n w = (Ok out, w') ->
  length out <= length (visited answers) /\
  forall m : nat,
    Forall (fun a => length (snd a) <= m) answers -> length out <= 4 * m.
Proof.
  intros Hq Hr Hs.
  rewrite (search_ok_intro text user n w w' queries answers Hq Hr) in Hs.
  injection Hs as <-.
  pose proof (first_appearances_length [] (visited answers)) as Hlen.
  split; [done |]. intros m Hm%visited_length.
  apply responses_queries in Hr. apply build_queries_length in Hq.
  rewrite <- Hr, length_fmap in Hq. rewrite Hq in Hm. lia.
Qed.

Lemma output_length_bounded_witness :
  length kerala_obc_schemes <=
    length (visited
      [ ("Kerala student scholarship government",
         [row_A; row_example; row_no_href; row_empty_href]);
        ("Kerala OBC scholarship government",
         [row_fake; row_A2; row_bare; row_A_untitled]);
        ("Central sector scholarship income government", []);
        ("Kerala higher education scholarship official", []) ]) /\
  forall m : nat,
    Forall (fun a => length (snd a) <= m)
      [ ("Kerala student scholarship government",
         [row_A; row_example; row_no_href; row_empty_href]);
        ("Kerala OBC scholarship government",
         [row_fake; row_A2; row_bare; row_A_untitled]);
        ("Central sector scholarship income government", []);
        ("Kerala higher education scholarship official", []) ] ->
    length kerala_obc_schemes <= 4 * m.
Proof.
  apply (output_length_bounded stub_text (dict kerala_obc) 10 tt tt
           (queries_of "Kerala" "OBC")); reflexivity.
Defined.

(** ** The accumulator *)

(** X7. The inner loop only appends to the accumulator: the entries it
    found there stay as they are and where they are, and what it adds
    comes after them, at most one entry per row, each under a key that was
    not there before, holding that key as its url and the current query as
    its source_query. *)
Theorem inner_loop_only_appends (query : string) (rows : list Row)
    (aggregated : pydict SchemeResult) :
  exists added,
    inner_loop query rows aggregated = aggregated ++ added /\
    length added <= length rows /\
    forall k e, (k, e) ∈ added ->
      (k ∉ aggregated.*1) /\ url e = k /\ source_query e = query.
Proof.
  revert aggregated. induction rows as [|r rows IH]; intros aggregated.
  - exists []. rewrite app_nil_r. split; [done |]. split; [done |].
    by intros k e ?%elem_of_nil.
  - cbn [inner_loop]. destruct (IH (process_row query r aggregated))
      as (added & -> & Hlen & Hadded).
    rewrite process_row_eq in *.
    destruct (accepted (get r "href")); cbn [andb] in *;
      [|exists added; simpl; split; [done | split; [lia | done]]].
    destruct (dict_contains (get r "href") aggregated) eqn:Hc; cbn [negb] in *;
      [exists added; simpl; split; [done | split; [lia | done]] |].
    exists ((get r "href", entry_of query r) :: added).
    rewrite <- app_assoc. split; [done |]. split; [simpl; lia |].
    intros k e [[= -> ->]|Hin]%elem_of_cons.
    + split; [|done]. rewrite <- dict_contains_elem_of. congruence.
    + destruct (Hadded k e Hin) as (Hk & Hu & Hq). split; [|done].
      intros Hin'. apply Hk. rewrite fmap_app, elem_of_app. by left.
Qed.

Lemma process_row_wf (query : string) (r : Row) (aggregated : pydict SchemeResult) :
  dict_wf aggregated -> dict_wf (process_row query r aggregated).
Proof.
  intros [Hnd Hurl]. rewrite process_row_eq.
  destruct (accepted (get r "href")); cbn [andb]; [|done].
  destruct (dict_contains (get r "href") aggregated) eqn:Hc; cbn [negb]; [done |].
  split.
  - rewrite fmap_app. apply NoDup_app. split; [done |]. split.
    + intros k Hk [->|[]%elem_of_nil]%elem_of_cons.
      apply dict_contains_elem_of in Hk. cbn [fst] in Hk. congruence.
    + apply NoDup_singleton.
  - apply Forall_app. split; [done |]. by repeat constructor.
Qed.

(** X8. The inner loop keeps the accumulator well formed: when its keys
    are pairwise distinct and each is the url of its entry before the
    loop, so they are after it. *)
Theorem inner_loop_keeps_wf (query : string) (rows : list Row)
    (aggregated : pydict SchemeResult) :
  dict_wf aggregated -> dict_wf (inner_loop query rows aggregated).
Proof.
  revert aggregated. induction rows as [|r rows IH]; intros aggregated Hwf; [done |].
  cbn [inner_loop]. by apply IH, process_row_wf.
Qed.

Lemma inner_loop_keeps_wf_witness :
  dict_wf (inner_loop "Kerala OBC scholarship government"
             [row_fake; row_A2; row_bare; row_A_untitled]
             [("https://scholarships.gov.in/x",
               entry_of "Kerala student scholarship government" row_A)]).
Proof.
  apply (inner_loop_keeps_wf "Kerala OBC scholarship government"
           [row_fake; row_A2; row_bare; row_A_untitled]
           [("https://scholarships.gov.in/x",
             entry_of "Kerala student scholarship government" row_A)]).
  split.
  - apply NoDup_singleton.
  - repeat constructor.
Defined.

Lemma elem_of_visited (query : string) (r : Row)
    (answers : list (string * list Row)) :
  (query, r) ∈ visited answers -> query ∈ answers.*1.
Proof.
  induction answers as [|[query0 rows] answers IH].
  - by intros ?%elem_of_nil.
  - rewrite visited_cons, elem_of_app, fmap_cons, elem_of_cons.
    intros [[-> _]%elem_of_tagged | Hin]; [by left | right; by apply IH].
Qed.

(** X9. Every entry of the output is tagged with one of the queries
    [build_queries] returned, and has a non-empty url. *)
Theorem entries_tagged_with_built_query {World : Type}
    (text : string -> Z -> World -> result (list Row) * World)
    (user : gmap string pyval) (n : Z) (w w' : World) (queries : list string)
    (out : list SchemeResult) (e : SchemeResult) :
  build_queries user = Ok queries ->
  duckduckgo_scheme_search text user n w = (Ok out, w') ->
  e ∈ out ->
  source_query e ∈ queries /\ url e <> "".
Proof.
  intros Hq (queries' & answers & Hq' & Hr & ->)%search_ok_inv Hin.
  rewrite Hq in Hq'. injection Hq' as <-. split.
  - apply list_elem_of_split in Hin as (o1 & o2 & Ho).
    apply first_appearances_split in Ho as (p & query & r & s & Hv & -> & _).
    rewrite <- (responses_queries text n queries w w' answers Hr).
    apply (elem_of_visited query r). rewrite Hv, elem_of_app. right. by left.
  - apply first_appearances_url in Hin as (_ & _ & Hacc).
    by apply accepted_spec in Hacc as [Hne _].
Qed.

Lemma entries_tagged_with_built_query_witness :
  source_query (entry_of "Kerala OBC scholarship government" row_fake)
    ∈ queries_of "Kerala" "OBC" /\
  url (entry_of "Kerala OBC scholarship government" row_fake) <> "".
Proof.
  apply (entries_tagged_with_built_query stub_text (dict kerala_obc) 10 tt tt
           (queries_of "Kerala" "OBC") kerala_obc_schemes).
  - reflexivity.
  - reflexivity.
  - apply list_elem_of_further, list_elem_of_here.
Defined.

Lemma first_appearances_nil_iff (earlier : list string)
    (rows : list (string * Row)) :
  first_appearances earlier rows = [] <->
  forall u, u ∈ hrefs rows -> accepted u = true -> u ∈ earlier.
Proof.
  split.
  - intros Hnil u Hin Hacc. destruct (decide (u ∈ earlier)) as [|Hne]; [done |].
    pose proof (first_appearances_complete earlier rows u Hacc Hin Hne) as Hu.
    rewrite Hnil in Hu. by apply elem_of_nil in Hu.
  - revert earlier. induction rows as [|[query r] rows IH]; intros earlier Hall;
      [done |].
    rewrite first_appearances_cons.
    assert (first_appearances (get r "href" :: earlier) rows = []) as ->.
    { apply IH. intros u Hin Hacc. right. apply Hall; [by right | done]. }
    destruct (accepted (get r "href")) eqn:Hacc; cbn [andb]; [|done].
    rewrite bool_decide_eq_true_2; [done |]. apply Hall; [by left | done].
Qed.

Lemma aggregate_app (A B : list (string * list Row)) :
  aggregate (A ++ B) =
  aggregate A ++ first_appearances (reverse (hrefs (visited A))) (visited B).
Proof.
  rewrite !aggregate_first_appearances, visited_app, first_appearances_app.
  by rewrite app_nil_r.
Qed.

(** X10. What the loops build from the answers to the first queries is a
    prefix of what they build from all the answers, and the later answers
    add nothing exactly when every URL in them that passes the filter was
    already returned under an earlier query. *)
Theorem later_answers_extend (A B : list (string * list Row)) :
  exists more,
    aggregate (A ++ B) = aggregate A ++ more /\
    (more = [] <->
     forall query r, (query, r) ∈ visited B ->
       accepted (get r "href") = true ->
       exists query' r', (query', r') ∈ visited A /\
                         get r' "href" = get r "href").
Proof.
  eexists. split; [apply aggregate_app |].
  rewrite first_appearances_nil_iff. split.
  - intros Hall query r Hin Hacc. apply elem_of_hrefs.
    rewrite <- elem_of_reverse. apply Hall; [|done].
    apply elem_of_hrefs. by exists query, r.
  - intros Hall u (query & r & Hin & <-)%elem_of_hrefs Hacc.
    rewrite elem_of_reverse. by apply elem_of_hrefs, (Hall query r).
Qed.

(** ** The endpoint *)

(** X11. The endpoint's answer depends on the profile through its state and
    category only: profiles that agree on these two fields get the same
    answer from the same provider in the same world, whatever their age,
    gender, income bracket and occupation. *)
Theorem find_schemes_reads_state_and_category {World : Type}
    (text : string -> Z -> World -> result (list Row) * World)
    (user1 user2 : UserProfile) (w : World) :
  state user1 = state user2 ->
  category user1 = category user2 ->
  find_schemes text user1 w = find_schemes text user2 w.
Proof.
  intros Hs Hc. unfold find_schemes.
  rewrite !duckduckgo_scheme_search_responses, !build_queries_dict.
  by rewrite Hs, Hc.
Qed.

Lemma find_schemes_reads_state_and_category_witness :
  find_schemes stub_text kerala_obc tt =
  find_schemes stub_text kerala_obc_retired tt.
Proof.
  apply (find_schemes_reads_state_and_category stub_text kerala_obc
           kerala_obc_retired tt); reflexivity.
Defined.

(** X12. A successful answer of the endpoint costs four provider calls:
    the provider answered the four queries built from the profile's state
    and category, in their order, each asked with max_results 10, and the
    schemes are what the loops build from these four answers. *)
Theorem find_schemes_asks_four_queries {World : Type}
    (text : string -> Z -> World -> result (list Row) * World)
    (user : UserProfile) (w w' : World) (env : Envelope) :
  find_schemes text user w = (Ok env, w') ->
  exists answers,
    responses text 10 (queries_of (state user) (category user)) w =
      (Ok answers, w') /\
    answers.*1 = queries_of (state user) (category user) /\
    length answers = 4 /\
    schemes env = aggregate answers.
Proof.
  unfold find_schemes.
  rewrite duckduckgo_scheme_search_responses, build_queries_dict.
  destruct (responses text 10 _ w) as [[answers|e] w0] eqn:Hr; [|done].
  intros [= <- <-]. exists answers.
  pose proof (responses_queries text _ _ _ _ _ Hr) as Hq.
  repeat split; [done |]. by rewrite <- (length_fmap fst), Hq.
Qed.

Lemma find_schemes_asks_four_queries_witness :
  exists answers,
    responses stub_text 10 (queries_of (state kerala_obc) (category kerala_obc)) tt =
      (Ok answers, tt) /\
    answers.*1 = queries_of (state kerala_obc) (category kerala_obc) /\
    length answers = 4 /\
    kerala_obc_schemes = aggregate answers.
Proof.
  apply (find_schemes_asks_four_queries stub_text kerala_obc tt tt
           {| query_state := "Kerala";
              count := 3;
              schemes := kerala_obc_schemes;
              disclaimer :=
                "Final eligibility is determined by the concerned government department." |}).
  reflexivity.
Defined.
